(** * Sales order aggregate: Currency, Money, ProductId, SalesOrderItem, SalesOrder

    A shallow embedding of the TypeScript domain model

      - [shared/domain/model/currency.ts]   ([Currency], [Money])
      - [sales/domain/model/product-id.ts]  ([ProductId], [DateTime])
      - [sales/domain/model/sales-order-item.ts]
      - [sales/domain/model/sales-order.ts]

    and the properties of its lifecycle state machine, item addition and
    money arithmetic.

    Conventions of the embedding:
      - a JavaScript [number] is an IEEE-754 binary64 value ([spec_float]
        with precision 53 and maximal exponent 1024), so that [NaN],
        the infinities and the two zeros behave as they do at run time;
      - a JavaScript string is its sequence of UTF-16 code units;
      - [throw] is the [Throw] result; a method of a mutable object is a
        function from the object and the host to a result and the object
        and host it leaves behind, also when it throws;
      - [crypto.randomUUID], the clock and [Date.parse] belong to the host. *)

From Stdlib Require Import ZArith NArith List String Ascii Bool Lia.
From Stdlib Require Import Floats.SpecFloat.
Import ListNotations.

Set Implicit Arguments.

(* ===================================================================== *)
(** ** JavaScript numbers *)
(* ===================================================================== *)

Module Number.

Definition number : Type := spec_float.

Definition prec : Z := 53.
Definition emax : Z := 1024.

(** [x + y] and [x * y]. *)
Definition add (x y : number) : number := SFadd prec emax x y.
Definition mul (x y : number) : number := SFmul prec emax x y.

(** [x < y], [x <= y], [x > y]; all three are [false] on [NaN]. *)
Definition lt (x y : number) : bool := SFltb x y.
Definition le (x y : number) : bool := SFleb x y.
Definition gt (x y : number) : bool := SFltb y x.

Definition NaN : number := S754_nan.
Definition Infinity : number := S754_infinity false.
Definition isNaN (x : number) : bool :=
  match x with S754_nan => true | _ => false end.

(** The numeric literal [0]. *)
Definition zero : number := S754_zero false.

(** An integer literal, rounded to the nearest binary64 value. *)
Definition of_Z (z : Z) : number := binary_normalize prec emax z 0 false.

End Number.

Abbreviation number := Number.number.

(* ===================================================================== *)
(** ** JavaScript strings *)
(* ===================================================================== *)

Module Str.

(** A string is the list of its UTF-16 code units. *)
Definition jsstring : Type := list N.

(** An ASCII literal of the source. *)
Definition lit (s : string) : jsstring :=
  map N_of_ascii (list_ascii_of_string s).

(** [a === b] on strings. *)
Fixpoint eqb (a b : jsstring) : bool :=
  match a, b with
  | [], [] => true
  | x :: a', y :: b' => N.eqb x y && eqb a' b'
  | _, _ => false
  end.

(** [!s]: the empty string is the only falsy string. *)
Definition falsy (s : jsstring) : bool :=
  match s with [] => true | _ => false end.

(** Code units removed by [String.prototype.trim]: WhiteSpace and
    LineTerminator of ECMAScript (TAB, LF, VT, FF, CR, SP, NBSP,
    the Unicode space separators, LS, PS and the BOM). *)
Definition whiteSpace : list N :=
  [9; 10; 11; 12; 13; 32; 160; 5760;
   8192; 8193; 8194; 8195; 8196; 8197; 8198; 8199; 8200; 8201; 8202;
   8232; 8233; 8239; 8287; 12288; 65279]%N.

Definition isWhiteSpace (c : N) : bool := existsb (N.eqb c) whiteSpace.

Fixpoint trimStart (s : jsstring) : jsstring :=
  match s with
  | [] => []
  | c :: s' => if isWhiteSpace c then trimStart s' else s
  end.

Definition trimEnd (s : jsstring) : jsstring := rev (trimStart (rev s)).

(** [s.trim()]. *)
Definition trim (s : jsstring) : jsstring := trimEnd (trimStart s).

(** An uppercase letter [A]..[Z]. *)
Definition isUpperCaseLetter (c : N) : bool := (65 <=? c)%N && (c <=? 90)%N.

End Str.

Abbreviation jsstring := Str.jsstring.
Abbreviation lit := Str.lit.

(* ===================================================================== *)
(** ** Order states, errors and results *)
(* ===================================================================== *)

(** [type SalesOrderState = 'PENDING' | 'CONFIRMED' | 'SHIPPED' | 'CANCELED'] *)
Inductive SalesOrderState : Type :=
| PENDING
| CONFIRMED
| SHIPPED
| CANCELED.

Definition SalesOrderState_eqb (a b : SalesOrderState) : bool :=
  match a, b with
  | PENDING, PENDING | CONFIRMED, CONFIRMED
  | SHIPPED, SHIPPED | CANCELED, CANCELED => true
  | _, _ => false
  end.

(** The string a state is at run time, as interpolated into messages. *)
Definition stateName (s : SalesOrderState) : jsstring :=
  match s with
  | PENDING => lit "PENDING"
  | CONFIRMED => lit "CONFIRMED"
  | SHIPPED => lit "SHIPPED"
  | CANCELED => lit "CANCELED"
  end.

(** One constructor per [throw] of the source; the arguments are the
    values interpolated into the message. *)
Inductive Error : Type :=
| AmountCannotBeNegative (amount : number)
| CannotAddDifferentCurrencies (this other : jsstring)
| FactorCannotBeNegative (factor : number)
| InvalidDate (parsed : number)
| DateCannotBeInTheFuture (parsed : number)
| ItemQuantityMustBeGreaterThanZero (quantity : number)
| CustomerIdCannotBeEmpty (customerId : jsstring)
| CannotAddItems (state : SalesOrderState)
| ProductIdCannotBeEmpty
| QuantityMustBeGreaterThanZero
| UnitPriceAmountCannotBeNegative
| CannotConfirm (state : SalesOrderState)
| CannotShip (state : SalesOrderState)
| CannotCancel (state : SalesOrderState).

Section Message.

(** [`${n}`] for a number and [`${d}`] for a Date of time value [d]. *)
Variable Number_toString : number -> jsstring.
Variable Date_toString : number -> jsstring.

(** The [message] of the thrown [Error] object. *)
Definition message (e : Error) : jsstring :=
  match e with
  | AmountCannotBeNegative a =>
      lit "Amount cannot be negative: " ++ Number_toString a
  | CannotAddDifferentCurrencies a b =>
      lit "Cannot add amounts with different currencies: "
        ++ a ++ lit " and " ++ b
  | FactorCannotBeNegative f =>
      lit "Factor cannot be negative: " ++ Number_toString f
  | InvalidDate d => lit "Invalid date: " ++ Date_toString d
  | DateCannotBeInTheFuture d =>
      lit "Date cannot be in the future: " ++ Date_toString d
  | ItemQuantityMustBeGreaterThanZero q =>
      lit "Quantity must be greater than zero: " ++ Number_toString q
  | CustomerIdCannotBeEmpty c => lit "Customer ID cannot be empty: " ++ c
  | CannotAddItems s =>
      lit "Cannot add items to an order that is " ++ stateName s
  | ProductIdCannotBeEmpty => lit "Product ID cannot be empty"
  | QuantityMustBeGreaterThanZero => lit "Quantity must be greater than zero"
  | UnitPriceAmountCannotBeNegative =>
      lit "Unit price amount cannot be negative"
  | CannotConfirm s => lit "Cannot confirm an order that is " ++ stateName s
  | CannotShip s => lit "Cannot ship an order that is " ++ stateName s
  | CannotCancel s => lit "Cannot cancel an order that is " ++ stateName s
  end.

End Message.

(** The error kinds of the design. The source throws plain [Error]
    objects; [kind] sorts its throw sites into those kinds. *)
Inductive ErrorKind : Type :=
| InvalidArgument
| InvalidStateTransition
| AddItemNotAllowed
| CurrencyMismatch
| InvalidFormat
| InvalidTimestamp.

Definition kind (e : Error) : ErrorKind :=
  match e with
  | AmountCannotBeNegative _ | FactorCannotBeNegative _
  | ItemQuantityMustBeGreaterThanZero _ | CustomerIdCannotBeEmpty _
  | ProductIdCannotBeEmpty | QuantityMustBeGreaterThanZero
  | UnitPriceAmountCannotBeNegative => InvalidArgument
  | CannotAddDifferentCurrencies _ _ => CurrencyMismatch
  | InvalidDate _ | DateCannotBeInTheFuture _ => InvalidTimestamp
  | CannotAddItems _ => AddItemNotAllowed
  | CannotConfirm _ | CannotShip _ | CannotCancel _ => InvalidStateTransition
  end.

(** The outcome of an expression that may throw. *)
Inductive result (A : Type) : Type :=
| Ok (a : A)
| Throw (e : Error).

Arguments Ok {A} a.
Arguments Throw {A} e.

(** Code that runs against a mutable store [S]: the store it leaves is
    returned on both outcomes. *)
Definition M (S A : Type) : Type := S -> result A * S.

Definition ret {S A} (a : A) : M S A := fun s => (Ok a, s).

Definition throw {S A} (e : Error) : M S A := fun s => (Throw e, s).

Definition bind {S A B} (c : M S A) (k : A -> M S B) : M S B :=
  fun s =>
    match c s with
    | (Ok a, s') => k a s'
    | (Throw e, s') => (Throw e, s')
    end.

Definition get {S} : M S S := fun s => (Ok s, s).

Definition put {S} (s : S) : M S unit := fun _ => (Ok tt, s).

(** A pure expression that may throw. *)
Definition liftR {S A} (r : result A) : M S A := fun s => (r, s).

Declare Scope js_scope.
Delimit Scope js_scope with js.
Notation "x <- c ;; k" := (bind c (fun x => k))
  (at level 61, c at next level, right associativity) : js_scope.
Notation "c ;;; k" := (bind c (fun _ => k))
  (at level 61, right associativity) : js_scope.
Local Open Scope js_scope.

(* ===================================================================== *)
(** ** The host *)
(* ===================================================================== *)

(** What the program takes from its host: the identities that
    [crypto.randomUUID()] hands out (the [issued]-th call returns
    [uuids issued]), the clock read by [new Date()], and [Date.parse]. *)
Record Host : Type := {
  uuids : nat -> jsstring;
  issued : nat;
  now : number;
  parseDate : jsstring -> number
}.

Definition randomUUID : M Host jsstring :=
  fun h => (Ok (uuids h (issued h)),
            {| uuids := uuids h; issued := S (issued h);
               now := now h; parseDate := parseDate h |}).

(* ===================================================================== *)
(** ** Currency (currency.ts) *)
(* ===================================================================== *)

Module Currency.

Record t : Type := { code : jsstring }.

(** The type [CurrencyCode]: three [UpperCaseLetter]s. It exists for
    the type checker only and is erased from the running program. *)
Definition isCurrencyCode (s : jsstring) : bool :=
  match s with
  | [a; b; c] =>
      Str.isUpperCaseLetter a && Str.isUpperCaseLetter b
        && Str.isUpperCaseLetter c
  | _ => false
  end.

(** [constructor(code) { this._code = code; }] *)
Definition new (code : jsstring) : result t := Ok {| code := code |}.

(** [toString = () => this._code] *)
Definition toString (c : t) : jsstring := code c.

End Currency.

(* ===================================================================== *)
(** ** Money (currency.ts) *)
(* ===================================================================== *)

Module Money.

Record t : Type := { amount : number; currency : Currency.t }.

(** [constructor(amount, currency)] *)
Definition new (amount : number) (currency : Currency.t) : result t :=
  if Number.lt amount Number.zero then Throw (AmountCannotBeNegative amount)
  else Ok {| amount := amount; currency := currency |}.

(** [add = (other) => ...] *)
Definition add (this other : t) : result t :=
  if negb (Str.eqb (Currency.code (currency this))
                   (Currency.code (currency other)))
  then Throw (CannotAddDifferentCurrencies
                (Currency.code (currency this))
                (Currency.code (currency other)))
  else new (Number.add (amount this) (amount other)) (currency this).

(** [multiply = (factor) => ...] *)
Definition multiply (this : t) (factor : number) : result t :=
  if Number.lt factor Number.zero then Throw (FactorCannotBeNegative factor)
  else new (Number.mul (amount this) factor) (currency this).

End Money.

(* ===================================================================== *)
(** ** ProductId and DateTime (product-id.ts) *)
(* ===================================================================== *)

Module ProductId.

Record t : Type := { id : jsstring }.

(** [constructor(id?: string) { this._id = id ?? crypto.randomUUID(); }]
    where [None] is the omitted argument. *)
Definition new (id : option jsstring) : M Host t :=
  match id with
  | Some s => ret {| id := s |}
  | None => u <- randomUUID ;; ret {| id := u |}
  end.

End ProductId.

Module DateTime.

(** The argument [value?: Date | string]; a Date is its time value,
    [NaN] for an invalid Date. *)
Inductive input : Type :=
| OfDate (time : number)
| OfString (s : jsstring).

Record t : Type := { value : number }.

(** [if (value)]: a Date object is truthy, a string unless empty. *)
Definition truthy (v : option input) : bool :=
  match v with
  | None => false
  | Some (OfDate _) => true
  | Some (OfString s) => negb (Str.falsy s)
  end.

(** [new Date(value)] *)
Definition toDate (h : Host) (v : option input) : number :=
  match v with
  | Some (OfDate time) => time
  | Some (OfString s) => parseDate h s
  | None => now h
  end.

(** [constructor(value?: Date | string)] *)
Definition new (value : option input) : M Host t :=
  h <- get ;;
  let now := now h in
  if truthy value then
    let parsedDate := toDate h value in
    if Number.isNaN parsedDate then throw (InvalidDate parsedDate)
    else if Number.gt parsedDate now
         then throw (DateCannotBeInTheFuture parsedDate)
         else ret {| value := parsedDate |}
  else ret {| value := now |}.

End DateTime.

(* ===================================================================== *)
(** ** SalesOrderItem (sales-order-item.ts) *)
(* ===================================================================== *)

Module SalesOrderItem.

Record t : Type := {
  orderId : jsstring;
  itemId : jsstring;
  productId : ProductId.t;
  quantity : number;
  unitPrice : Money.t
}.

(** [constructor(orderId, productId, quantity, unitPrice)] *)
Definition new (orderId : jsstring) (productId : ProductId.t)
    (quantity : number) (unitPrice : Money.t) : M Host t :=
  if Number.le quantity Number.zero
  then throw (ItemQuantityMustBeGreaterThanZero quantity)
  else
    itemId <- randomUUID ;;
    ret {| orderId := orderId; itemId := itemId; productId := productId;
           quantity := quantity; unitPrice := unitPrice |}.

(** [calculateItemTotal()] *)
Definition calculateItemTotal (this : t) : result Money.t :=
  Money.new (Number.mul (Money.amount (unitPrice this)) (quantity this))
            (Money.currency (unitPrice this)).

End SalesOrderItem.

(* ===================================================================== *)
(** ** SalesOrder (sales-order.ts) *)
(* ===================================================================== *)

(** [array.reduce(callback, initialValue)] with a callback that may throw. *)
Fixpoint reduce {A B : Type} (callback : B -> A -> result B)
    (array : list A) (initialValue : B) : result B :=
  match array with
  | [] => Ok initialValue
  | x :: rest =>
      match callback initialValue x with
      | Ok acc => reduce callback rest acc
      | Throw e => Throw e
      end
  end.

Module SalesOrder.

Record t : Type := {
  customerId : jsstring;
  id : jsstring;
  items : list SalesOrderItem.t;
  orderedAt : DateTime.t;
  currency : Currency.t;
  state : SalesOrderState
}.

(** A method runs against its receiver and the host. *)
Definition Method (A : Type) : Type := M (t * Host) A.

Definition this : Method t := fun s => (Ok (fst s), s).

(** A call into the host or into a constructor that uses it. *)
Definition host {A} (c : M Host A) : Method A :=
  fun s => let (r, h) := c (snd s) in (r, (fst s, h)).

(** The order [o] after [o._state = newState]. *)
Definition withState (o : t) (newState : SalesOrderState) : t :=
  {| customerId := customerId o; id := id o; items := items o;
     orderedAt := orderedAt o; currency := currency o;
     state := newState |}.

(** The order [o] after [o._items.push(item)]. *)
Definition withItem (o : t) (item : SalesOrderItem.t) : t :=
  {| customerId := customerId o; id := id o; items := items o ++ [item];
     orderedAt := orderedAt o; currency := currency o;
     state := state o |}.

(** [this._state = newState] *)
Definition assign_state (newState : SalesOrderState) : Method unit :=
  fun s => (Ok tt, (withState (fst s) newState, snd s)).

(** [this._items.push(item)] *)
Definition push (item : SalesOrderItem.t) : Method unit :=
  fun s => (Ok tt, (withItem (fst s) item, snd s)).

(** [constructor(customerId, currency, orderedAt?)] *)
Definition new (customerId : jsstring) (currency : Currency.t)
    (orderedAt : option DateTime.input) : M Host t :=
  if Str.falsy customerId || Str.eqb (Str.trim customerId) []
  then throw (CustomerIdCannotBeEmpty customerId)
  else
    id <- randomUUID ;;
    orderedAt' <- DateTime.new orderedAt ;;
    ret {| customerId := customerId; id := id; items := [];
           orderedAt := orderedAt'; currency := currency;
           state := PENDING |}.

(** [private canAddItems()] *)
Definition canAddItems (o : t) : bool :=
  negb (SalesOrderState_eqb (state o) CANCELED)
  && negb (SalesOrderState_eqb (state o) SHIPPED).

(** [set state(newState) { this._state = newState; }] *)
Definition set_state (newState : SalesOrderState) : Method unit :=
  assign_state newState.

(** [!productId || productId.id.trim() === '']; [None] is a missing
    ([null] or [undefined]) argument. *)
Definition blankProductId (productId : option ProductId.t) : bool :=
  match productId with
  | None => true
  | Some p => Str.eqb (Str.trim (ProductId.id p)) []
  end.

(** [addItem(productId, quantity, unitPriceAmount)] *)
Definition addItem (productId : option ProductId.t)
    (quantity unitPriceAmount : number) : Method unit :=
  o <- this ;;
  if negb (canAddItems o) then throw (CannotAddItems (state o))
  else
    match productId with
    | None => throw ProductIdCannotBeEmpty
    | Some p =>
        if Str.eqb (Str.trim (ProductId.id p)) []
        then throw ProductIdCannotBeEmpty
        else if Number.le quantity Number.zero
        then throw QuantityMustBeGreaterThanZero
        else if Number.lt unitPriceAmount Number.zero
        then throw UnitPriceAmountCannotBeNegative
        else
          unitPrice <- liftR (Money.new unitPriceAmount (currency o)) ;;
          item <- host (SalesOrderItem.new (id o) p quantity unitPrice) ;;
          push item
    end.

(** [calculateTotalAmount()] *)
Definition calculateTotalAmount : Method Money.t :=
  o <- this ;;
  initialValue <- liftR (Money.new Number.zero (currency o)) ;;
  liftR (reduce
           (fun total item =>
              match SalesOrderItem.calculateItemTotal item with
              | Ok itemTotal => Money.add total itemTotal
              | Throw e => Throw e
              end)
           (items o) initialValue).

(** [confirm()] *)
Definition confirm : Method unit :=
  o <- this ;;
  if SalesOrderState_eqb (state o) PENDING then assign_state CONFIRMED
  else throw (CannotConfirm (state o)).

(** [ship()] *)
Definition ship : Method unit :=
  o <- this ;;
  if SalesOrderState_eqb (state o) CONFIRMED then assign_state SHIPPED
  else throw (CannotShip (state o)).

(** [cancel()] *)
Definition cancel : Method unit :=
  o <- this ;;
  if SalesOrderState_eqb (state o) PENDING
     || SalesOrderState_eqb (state o) CANCELED
  then throw (CannotCancel (state o))
  else assign_state CANCELED.

(** The members through which a caller acts on an order; the getters
    only return a field. *)
Inductive Call : Type :=
| AddItem (productId : option ProductId.t)
          (quantity unitPriceAmount : number)
| CalculateTotalAmount
| Confirm
| Ship
| Cancel
| SetState (newState : SalesOrderState).

Definition run (c : Call) : Method unit :=
  match c with
  | AddItem p q u => addItem p q u
  | CalculateTotalAmount => calculateTotalAmount ;;; ret tt
  | Confirm => confirm
  | Ship => ship
  | Cancel => cancel
  | SetState s => set_state s
  end.

(** A caller that catches what a call throws and goes on. *)
Fixpoint runAll (cs : list Call) (s : t * Host) : t * Host :=
  match cs with
  | [] => s
  | c :: cs' => runAll cs' (snd (run c s))
  end.

(** The orders a program can hold: built by the constructor and then
    acted on through the members above only. *)
Inductive Reachable : t -> Prop :=
| Reachable_new customerId currency orderedAt h o h' :
    new customerId currency orderedAt h = (Ok o, h') -> Reachable o
| Reachable_run c o h r o' h' :
    Reachable o -> run c (o, h) = (r, (o', h')) -> Reachable o'.

End SalesOrder.

(* ===================================================================== *)
(** ** Customer (crm/domain/model/customer.ts) *)
(* ===================================================================== *)

Module Customer.

(** [_lastOrderPrice: Money | null]; [None] is [null]. *)
Record t : Type := {
  id : jsstring;
  name : jsstring;
  lastOrderPrice : option Money.t
}.

(** The one [throw] of the class:
    [Error(`Customer name cannot be empty: ${name}`)]. *)
Inductive Thrown : Type :=
| NameCannotBeEmpty (name : jsstring).

(** [constructor(name)] *)
Definition new (name : jsstring) (h : Host) : (Thrown + t) * Host :=
  if Str.falsy name || Str.eqb (Str.trim name) []
  then (inl (NameCannotBeEmpty name), h)
  else
    match randomUUID h with
    | (Ok id, h') =>
        (inr {| id := id; name := name; lastOrderPrice := None |}, h')
    | (Throw _, h') => (inl (NameCannotBeEmpty name), h')  (* never taken *)
    end.

(** [set lastOrderPrice(newLastOrderPrice) { ... }] *)
Definition set_lastOrderPrice (newLastOrderPrice : Money.t) (c : t) : t :=
  {| id := id c; name := name c;
     lastOrderPrice := Some newLastOrderPrice |}.

End Customer.

(* ===================================================================== *)
(** ** The lifecycle of the design *)
(* ===================================================================== *)

(** The transition table of the design's state machine:
    PENDING -confirm-> CONFIRMED -ship-> SHIPPED, and cancel from
    PENDING or CONFIRMED; nothing leaves SHIPPED or CANCELED. *)
Inductive transition : SalesOrderState -> SalesOrderState -> Prop :=
| t_confirm : transition PENDING CONFIRMED
| t_ship : transition CONFIRMED SHIPPED
| t_cancel_pending : transition PENDING CANCELED
| t_cancel_confirmed : transition CONFIRMED CANCELED.

(** The open states, in which items may be added. *)
Definition open (s : SalesOrderState) : bool :=
  match s with
  | PENDING | CONFIRMED => true
  | SHIPPED | CANCELED => false
  end.

(* ===================================================================== *)
(** ** Vocabulary of the properties *)
(* ===================================================================== *)

(** A number the guard [x < 0] lets through: a zero of either sign, a
    positive number, [+Infinity] or [NaN]. *)
Definition notNegative (x : number) : Prop :=
  Number.lt x Number.zero = false.

(** The calls other than the raw setter and [cancel]. *)
Definition guarded (c : SalesOrder.Call) : bool :=
  match c with
  | SalesOrder.SetState _ | SalesOrder.Cancel => false
  | _ => true
  end.

(** What [addItem] guarantees of an item it appends to [o]: the unit
    price is in the order's currency, and price and quantity passed the
    guards. *)
Definition addedTo (o : SalesOrder.t) (item : SalesOrderItem.t) : Prop :=
  Money.currency (SalesOrderItem.unitPrice item) = SalesOrder.currency o
  /\ notNegative (Money.amount (SalesOrderItem.unitPrice item))
  /\ notNegative (SalesOrderItem.quantity item).

(** The sum of the item totals, as numbers: the fold of
    [total + unitPrice.amount * quantity] over the items in order. *)
Definition sumOfItemTotals (array : list SalesOrderItem.t)
    (initialValue : number) : number :=
  fold_left
    (fun total item =>
       Number.add total
         (Number.mul (Money.amount (SalesOrderItem.unitPrice item))
                     (SalesOrderItem.quantity item)))
    array initialValue.

(** The calls other than the raw setter. *)
Definition setterFree (c : SalesOrder.Call) : bool :=
  match c with
  | SalesOrder.SetState _ => false
  | _ => true
  end.

(** How far along its lifecycle an order is. *)
Definition rank (s : SalesOrderState) : nat :=
  match s with
  | PENDING => 0
  | CONFIRMED => 1
  | SHIPPED => 2
  | CANCELED => 3
  end.

(** The host after [n] more calls of [crypto.randomUUID()]. *)
Definition advance (n : nat) (h : Host) : Host :=
  {| uuids := uuids h; issued := n + issued h; now := now h;
     parseDate := parseDate h |}.

(** A string of white space only, the empty string included. *)
Definition blank (s : jsstring) : bool := forallb Str.isWhiteSpace s.


(* ===================================================================== *)
(** ** Concrete values used in examples *)
(* ===================================================================== *)

Module Demo.

Definition USD : Currency.t := {| Currency.code := lit "USD" |}.
Definition PEN : Currency.t := {| Currency.code := lit "PEN" |}.

(** The record of a Money of [amount] US dollars. *)
Definition usd (amount : number) : Money.t :=
  {| Money.amount := amount; Money.currency := USD |}.

(** A host whose [n]-th identity is ["uuid-"] followed by [n] sharps,
    whose clock reads 2025-11-03T00:00:00Z and which parses no string. *)
Definition host : Host :=
  {| uuids := fun n => lit "uuid-" ++ repeat 35%N n;
     issued := 0;
     now := Number.of_Z 1762128000000;
     parseDate := fun _ => Number.NaN |}.

Definition hostAfter (n : nat) : Host :=
  {| uuids := uuids host; issued := n; now := now host;
     parseDate := parseDate host |}.

(** [new SalesOrder("cust-1", USD)] on [host]. *)
Definition order : SalesOrder.t :=
  {| SalesOrder.customerId := lit "cust-1";
     SalesOrder.id := lit "uuid-";
     SalesOrder.items := [];
     SalesOrder.orderedAt := {| DateTime.value := now host |};
     SalesOrder.currency := USD;
     SalesOrder.state := PENDING |}.

Definition product (n : nat) : ProductId.t :=
  {| ProductId.id := lit "product-" ++ repeat 35%N n |}.

(** The calls of the first scenario of the console script. *)
Definition scenario : list SalesOrder.Call :=
  [SalesOrder.AddItem (Some (product 1)) (Number.of_Z 2) (Number.of_Z 100);
   SalesOrder.AddItem (Some (product 2)) (Number.of_Z 20) (Number.of_Z 50);
   SalesOrder.Confirm].

Definition confirmed : SalesOrder.t * Host :=
  Eval vm_compute in SalesOrder.runAll scenario (order, hostAfter 1).

Definition shipped : SalesOrder.t * Host :=
  Eval vm_compute in SalesOrder.runAll [SalesOrder.Ship] confirmed.

End Demo.

(* ===================================================================== *)
(** * Properties *)
(* ===================================================================== *)

(** Reads the store a call left behind off an equation
    [(r, (o, h)) = (r', (o', h'))]. *)
Ltac store_of H := injection H as _ <- _; auto.

(** ** Numbers: what the guards [x < 0] and [x <= 0] let through *)

Section NumberFacts.

Import Number.

Lemma notNegative_cases x :
  notNegative x <->
  (exists s, x = S754_zero s) \/ x = S754_infinity false \/ x = S754_nan
  \/ (exists m e, x = S754_finite false m e).
Proof.
  unfold notNegative, lt, SFltb, zero.
  destruct x as [s|s| |s m e]; cbn.
  - split; [eauto | trivial].
  - destruct s; split; try discriminate; auto.
    intros [[s H]|[H|[H|[m [e H]]]]]; discriminate.
  - split; auto.
  - destruct s; split; try discriminate; eauto 6.
    intros [[s H]|[H|[H|[m' [e' H]]]]]; discriminate.
Qed.

(** Rounding keeps the sign it is given. *)
Lemma binary_round_aux_notNegative m e l :
  notNegative (binary_round_aux prec emax false m e l).
Proof.
  unfold binary_round_aux.
  destruct (shr_fexp prec emax m e l) as [mrs' e'].
  destruct (shr_fexp prec emax _ e' loc_Exact) as [mrs'' e''].
  destruct (shr_m mrs''); [reflexivity| |reflexivity].
  destruct (Z.leb e'' (Z.sub emax prec)); reflexivity.
Qed.

Lemma binary_round_notNegative m e :
  notNegative (binary_round prec emax false m e).
Proof.
  unfold binary_round.
  destruct (shl_align m e _) as [mz ez].
  apply binary_round_aux_notNegative.
Qed.

Lemma mul_notNegative x y :
  notNegative x -> notNegative y -> notNegative (mul x y).
Proof.
  intros Hx Hy.
  apply notNegative_cases in Hx; apply notNegative_cases in Hy.
  destruct Hx as [[sx ->]|[->|[->|[mx [ex ->]]]]];
    destruct Hy as [[sy ->]|[->|[->|[my [ey ->]]]]];
    try reflexivity.
  apply binary_round_aux_notNegative.
Qed.

Lemma add_notNegative x y :
  notNegative x -> notNegative y -> notNegative (add x y).
Proof.
  intros Hx Hy.
  apply notNegative_cases in Hx; apply notNegative_cases in Hy.
  destruct Hx as [[sx ->]|[->|[->|[mx [ex ->]]]]];
    destruct Hy as [[sy ->]|[->|[->|[my [ey ->]]]]];
    try reflexivity.
  - destruct sx, sy; reflexivity.
  - unfold add, SFadd. cbn [cond_Zopp Z.add binary_normalize].
    apply binary_round_notNegative.
Qed.

(** [x <= 0] false implies [x < 0] false. *)
Lemma le_false_notNegative x : le x zero = false -> notNegative x.
Proof.
  unfold notNegative, le, lt, SFleb, SFltb.
  destruct (SFcompare x zero) as [[ | | ]|]; congruence.
Qed.

(** [0 < x] implies that [x <= 0] is false, and [0 <= x] that
    [x < 0] is false. *)
Lemma pos_not_le x : lt zero x = true -> le x zero = false.
Proof.
  unfold notNegative, isNaN, lt, le, SFltb, SFleb, zero.
  destruct x as [s|[|]| |[|] m e]; simpl; congruence.
Qed.

Lemma nonneg_not_lt x : le zero x = true -> lt x zero = false.
Proof.
  unfold notNegative, isNaN, lt, le, SFltb, SFleb, zero.
  destruct x as [s|[|]| |[|] m e]; simpl; congruence.
Qed.

(** Away from [NaN] the guard [x < 0] is the negation of [0 <= x]. *)
Lemma notNegative_le x : isNaN x = false -> notNegative x -> le zero x = true.
Proof.
  unfold notNegative, isNaN, lt, le, SFltb, SFleb, zero.
  destruct x as [s|[|]| |[|] m e]; simpl; congruence.
Qed.

End NumberFacts.

(** ** Strings *)

Lemma Str_eqb_eq (a b : jsstring) : Str.eqb a b = true <-> a = b.
Proof.
  revert b; induction a as [|x a IH]; intros [|y b]; cbn;
    try (split; [discriminate|discriminate]); [tauto|].
  rewrite andb_true_iff, N.eqb_eq, IH.
  split; [intros [-> ->]; reflexivity | intros H; injection H; auto].
Qed.

Lemma Str_eqb_refl (a : jsstring) : Str.eqb a a = true.
Proof. apply Str_eqb_eq; reflexivity. Qed.

Lemma Str_eqb_neq (a b : jsstring) : Str.eqb a b = false <-> a <> b.
Proof.
  rewrite <- Str_eqb_eq. destruct (Str.eqb a b); split; congruence.
Qed.

(** ** Lifecycle transitions *)

Section Lifecycle.

Import SalesOrder.

Lemma canAddItems_open o : canAddItems o = open (state o).
Proof. unfold canAddItems; destruct (state o); reflexivity. Qed.

Lemma withState_same o : withState o (state o) = o.
Proof. destruct o; reflexivity. Qed.

Lemma Reachable_runAll cs : forall o h,
  Reachable o -> Reachable (fst (runAll cs (o, h))).
Proof.
  induction cs as [|c cs IH]; intros o h Ho; [exact Ho|].
  cbn [runAll].
  destruct (run c (o, h)) as [r [o' h']] eqn:E.
  apply IH. exact (Reachable_run c h Ho E).
Qed.

Lemma Reachable_Demo_order : Reachable Demo.order.
Proof.
  apply (@Reachable_new (lit "cust-1") Demo.USD None Demo.host
           Demo.order (Demo.hostAfter 1)).
  reflexivity.
Qed.

Lemma Reachable_Demo_shipped : Reachable (fst Demo.shipped).
Proof.
  exact (Reachable_runAll (Demo.scenario ++ [Ship]) (Demo.hostAfter 1)
           Reachable_Demo_order).
Qed.

(** C1: on the code, [cancel] throws from PENDING and from CANCELED,
    naming the state and leaving the order as it was, and succeeds from
    CONFIRMED and from SHIPPED, setting the state to CANCELED. So a
    PENDING order cannot be cancelled and a SHIPPED one can, against the
    lifecycle in which PENDING and CONFIRMED orders are the
    cancellable ones. *)
Theorem cancel_throws_from_pending_succeeds_from_shipped
    (o : SalesOrder.t) (h : Host) :
  cancel (withState o PENDING, h)
    = (Throw (CannotCancel PENDING), (withState o PENDING, h))
  /\ cancel (withState o SHIPPED, h)
    = (Ok tt, (withState o CANCELED, h))
  /\ cancel (withState o CONFIRMED, h)
    = (Ok tt, (withState o CANCELED, h))
  /\ cancel (withState o CANCELED, h)
    = (Throw (CannotCancel CANCELED), (withState o CANCELED, h))
  /\ ~ transition SHIPPED CANCELED.
Proof.
  repeat split. intros H; inversion H.
Qed.

(** C2: [confirm] succeeds exactly when the state is PENDING and then
    sets it to CONFIRMED; [ship] succeeds exactly when the state is
    CONFIRMED and then sets it to SHIPPED. In every other state the
    call throws an error that carries, and whose message ends with,
    the current state, and the order is left as it was. *)
Theorem confirm_and_ship_follow_the_lifecycle
    (o : SalesOrder.t) (h : Host) :
  (state o = PENDING ->
     confirm (o, h) = (Ok tt, (withState o CONFIRMED, h)))
  /\ (state o <> PENDING ->
     confirm (o, h) = (Throw (CannotConfirm (state o)), (o, h)))
  /\ (state o = CONFIRMED ->
     ship (o, h) = (Ok tt, (withState o SHIPPED, h)))
  /\ (state o <> CONFIRMED ->
     ship (o, h) = (Throw (CannotShip (state o)), (o, h)))
  /\ ((exists s, confirm (o, h) = (Ok tt, s)) <-> state o = PENDING)
  /\ ((exists s, ship (o, h) = (Ok tt, s)) <-> state o = CONFIRMED)
  /\ (forall ns ds s,
        kind (CannotConfirm s) = InvalidStateTransition
        /\ kind (CannotShip s) = InvalidStateTransition
        /\ message ns ds (CannotConfirm s)
           = lit "Cannot confirm an order that is " ++ stateName s
        /\ message ns ds (CannotShip s)
           = lit "Cannot ship an order that is " ++ stateName s).
Proof.
  unfold confirm, ship, bind, this, assign_state, throw; cbn [fst snd].
  repeat split.
  - intros ->; reflexivity.
  - intros H; destruct (state o); cbn; congruence.
  - intros ->; reflexivity.
  - intros H; destruct (state o); cbn; congruence.
  - intros [s H]; destruct (state o); cbn in H; congruence.
  - intros ->; eexists; reflexivity.
  - intros [s H]; destruct (state o); cbn in H; congruence.
  - intros ->; eexists; reflexivity.
Qed.

Lemma confirm_and_ship_follow_the_lifecycle_witness :
  confirm (Demo.order, Demo.host)
    = (Ok tt, (withState Demo.order CONFIRMED, Demo.host))
  /\ ship (Demo.order, Demo.host)
    = (Throw (CannotShip PENDING), (Demo.order, Demo.host))
  /\ ship Demo.confirmed
    = (Ok tt, (withState (fst Demo.confirmed) SHIPPED, snd Demo.confirmed))
  /\ confirm Demo.confirmed = (Throw (CannotConfirm CONFIRMED), Demo.confirmed).
Proof.
  destruct (confirm_and_ship_follow_the_lifecycle Demo.order Demo.host)
    as (Hc & _ & _ & Hs & _).
  destruct (confirm_and_ship_follow_the_lifecycle
              (fst Demo.confirmed) (snd Demo.confirmed))
    as (_ & Hc' & Hs' & _).
  split; [|split; [|split]].
  - apply Hc; reflexivity.
  - apply Hs; discriminate.
  - apply Hs'; reflexivity.
  - apply Hc'; discriminate.
Defined.

Lemma addItem_outcome productId quantity unitPriceAmount o h :
  addItem productId quantity unitPriceAmount (o, h)
  = if negb (canAddItems o) then (Throw (CannotAddItems (state o)), (o, h))
    else if blankProductId productId
    then (Throw ProductIdCannotBeEmpty, (o, h))
    else if Number.le quantity Number.zero
    then (Throw QuantityMustBeGreaterThanZero, (o, h))
    else if Number.lt unitPriceAmount Number.zero
    then (Throw UnitPriceAmountCannotBeNegative, (o, h))
    else
      match productId with
      | Some p =>
          (Ok tt,
           (withItem o
              {| SalesOrderItem.orderId := id o;
                 SalesOrderItem.itemId := uuids h (issued h);
                 SalesOrderItem.productId := p;
                 SalesOrderItem.quantity := quantity;
                 SalesOrderItem.unitPrice :=
                   {| Money.amount := unitPriceAmount;
                      Money.currency := currency o |} |},
            {| uuids := uuids h; issued := S (issued h); now := now h;
               parseDate := parseDate h |}))
      | None => (Throw ProductIdCannotBeEmpty, (o, h))
      end.
Proof.
  unfold addItem, bind, this; cbn [fst snd].
  destruct (negb (canAddItems o)); [reflexivity|].
  destruct productId as [p|]; cbn [blankProductId]; [|reflexivity].
  destruct (Str.eqb _ _); [reflexivity|].
  destruct (Number.le _ _) eqn:Hq; [reflexivity|].
  destruct (Number.lt _ _) eqn:Hp; [reflexivity|].
  unfold liftR, Money.new, host, SalesOrderItem.new, push, bind, ret,
    randomUUID; cbn [fst snd].
  rewrite Hp, Hq. reflexivity.
Qed.

Lemma addItem_state productId quantity unitPriceAmount o h r o' h' :
  addItem productId quantity unitPriceAmount (o, h) = (r, (o', h')) ->
  state o' = state o.
Proof.
  rewrite addItem_outcome.
  destruct (negb _); [congruence|].
  destruct (blankProductId _); [congruence|].
  destruct (Number.le _ _); [congruence|].
  destruct (Number.lt _ _); [congruence|].
  destruct productId; intros H; injection H as _ <- _; reflexivity.
Qed.

Lemma calculateTotalAmount_store s :
  snd (calculateTotalAmount s) = s.
Proof.
  unfold calculateTotalAmount, bind, this, liftR.
  destruct (Money.new _ _); reflexivity.
Qed.

End Lifecycle.

(** ** The raw state setter *)

Section Setter.

Import SalesOrder.

(** C3, as stated, fails: the aggregate has a public setter for its
    state. On the order reached by the constructor, two [addItem],
    [confirm] and [ship], which is SHIPPED, assigning PENDING through
    the setter succeeds and the order is PENDING again, a change that
    is not a transition of the lifecycle. *)
Lemma set_state_takes_shipped_back_to_pending :
  Reachable (fst Demo.shipped)
  /\ state (fst Demo.shipped) = SHIPPED
  /\ run (SetState PENDING) Demo.shipped
     = (Ok tt, (withState (fst Demo.shipped) PENDING, snd Demo.shipped))
  /\ state (withState (fst Demo.shipped) PENDING) = PENDING
  /\ ~ transition SHIPPED PENDING.
Proof.
  split; [exact Reachable_Demo_shipped|].
  split; [reflexivity|]. split; [reflexivity|]. split; [reflexivity|].
  intros H; inversion H.
Qed.

(** C3, amended: the aggregate does expose a raw setter, which assigns
    any state whatever the current one is. The state changes made by
    the other members follow the lifecycle: [confirm] only takes
    PENDING to CONFIRMED, [ship] only takes CONFIRMED to SHIPPED, and
    [addItem] and [calculateTotalAmount] never change the state.
    ([cancel] is left out here.) *)
Theorem state_changes_other_than_by_setter
    (c : Call) (o : SalesOrder.t) (h : Host) :
  (forall newState,
     run (SetState newState) (o, h) = (Ok tt, (withState o newState, h)))
  /\ (guarded c = true ->
      forall r o' h', run c (o, h) = (r, (o', h')) ->
        state o' = state o \/ transition (state o) (state o'))
  /\ (forall r o' h', run Confirm (o, h) = (r, (o', h')) ->
        state o' = state o \/ (state o = PENDING /\ state o' = CONFIRMED))
  /\ (forall r o' h', run Ship (o, h) = (r, (o', h')) ->
        state o' = state o \/ (state o = CONFIRMED /\ state o' = SHIPPED))
  /\ (forall p q u r o' h', run (AddItem p q u) (o, h) = (r, (o', h')) ->
        state o' = state o)
  /\ (forall r o' h', run CalculateTotalAmount (o, h) = (r, (o', h')) ->
        state o' = state o).
Proof.
  assert (Hconfirm : forall r o' h', run Confirm (o, h) = (r, (o', h')) ->
            state o' = state o \/ (state o = PENDING /\ state o' = CONFIRMED)).
  { intros r o' h'; cbn [run].
    unfold confirm, bind, this, assign_state, throw; cbn [fst snd].
    destruct (state o) eqn:E; cbn; intros H; injection H as _ <- _;
      cbn; auto. }
  assert (Hship : forall r o' h', run Ship (o, h) = (r, (o', h')) ->
            state o' = state o \/ (state o = CONFIRMED /\ state o' = SHIPPED)).
  { intros r o' h'; cbn [run].
    unfold ship, bind, this, assign_state, throw; cbn [fst snd].
    destruct (state o) eqn:E; cbn; intros H; injection H as _ <- _;
      cbn; auto. }
  assert (Hadd : forall p q u r o' h',
            run (AddItem p q u) (o, h) = (r, (o', h')) -> state o' = state o).
  { intros p q u r o' h'; cbn [run]. apply addItem_state. }
  assert (Htotal : forall r o' h',
            run CalculateTotalAmount (o, h) = (r, (o', h')) ->
            state o' = state o).
  { intros r o' h'; cbn [run]; unfold bind.
    pose proof (calculateTotalAmount_store (o, h)) as Hs.
    destruct (calculateTotalAmount (o, h)) as [[m|e] s]; cbn in Hs; subst s;
      unfold ret; intros H; injection H as _ <- _; reflexivity. }
  split; [reflexivity|].
  split; [|auto].
  destruct c; cbn [guarded]; try discriminate; intros _ r o' h' H.
  - left; eapply Hadd; eassumption.
  - left; eapply Htotal; eassumption.
  - destruct (Hconfirm _ _ _ H) as [|[E1 E2]]; [auto|].
    right; rewrite E1, E2; constructor.
  - destruct (Hship _ _ _ H) as [|[E1 E2]]; [auto|].
    right; rewrite E1, E2; constructor.
Qed.

Lemma state_changes_other_than_by_setter_witness :
  state (fst (snd (run Confirm (Demo.order, Demo.host)))) = state Demo.order
  \/ transition (state Demo.order)
       (state (fst (snd (run Confirm (Demo.order, Demo.host))))).
Proof.
  destruct (state_changes_other_than_by_setter Confirm Demo.order Demo.host)
    as (_ & H & _).
  apply (H eq_refl (fst (run Confirm (Demo.order, Demo.host)))
           _ (snd (snd (run Confirm (Demo.order, Demo.host))))).
  reflexivity.
Defined.

End Setter.

(** ** Currency *)

Section CurrencyFacts.

(** C4, as stated, fails: the constructor stores whatever string it is
    given. With ["us"] and with ["USDX"], neither of which has the
    three-uppercase-letter shape, construction succeeds. *)
Lemma Currency_new_accepts_malformed_codes :
  Currency.isCurrencyCode (lit "us") = false
  /\ Currency.new (lit "us") = Ok {| Currency.code := lit "us" |}
  /\ Currency.isCurrencyCode (lit "USDX") = false
  /\ Currency.new (lit "USDX") = Ok {| Currency.code := lit "USDX" |}
  /\ ~ (exists e, Currency.new (lit "us") = Throw e).
Proof.
  repeat split. intros [e H]; discriminate H.
Qed.

(** C4, amended: Currency construction validates nothing at run time;
    for every code it succeeds and stores the code as given, and no
    error of the program has the kind InvalidFormat. The shape of three
    uppercase letters is the type [CurrencyCode] of the parameter, which
    admits ["USD"] and excludes ["us"] and ["USDX"]. *)
Theorem Currency_new_never_fails (code : jsstring) :
  Currency.new code = Ok {| Currency.code := code |}
  /\ (forall e : Error, kind e <> InvalidFormat)
  /\ (Currency.isCurrencyCode code = true <->
      List.length code = 3 /\ forallb Str.isUpperCaseLetter code = true)
  /\ Currency.isCurrencyCode (lit "USD") = true
  /\ Currency.isCurrencyCode (lit "us") = false
  /\ Currency.isCurrencyCode (lit "USDX") = false.
Proof.
  split; [reflexivity|].
  split; [intros []; discriminate|].
  split; [|repeat split].
  destruct code as [|a [|b [|c [|d code]]]]; cbn;
    try (split; [discriminate | intros [H _]; discriminate H]).
  rewrite andb_true_r, andb_assoc.
  split; [intros H; split; [reflexivity | exact H] | intros [_ H]; exact H].
Qed.

End CurrencyFacts.

(** ** Item addition *)

Section AddItem.

Import SalesOrder.

Variables (o : SalesOrder.t) (h : Host).
Variables (productId : option ProductId.t).
Variables (quantity unitPriceAmount : number).

(** C5: [addItem] reports its failures in a fixed priority. A state
    that is not open gives the error "cannot add items" (kind
    AddItemNotAllowed) whatever the arguments are; in an open state a
    blank product identity gives "product id cannot be empty" whatever
    the numbers are; then a quantity [<= 0] gives "quantity must be
    greater than zero" whatever the price is; then a price [< 0] gives
    "unit price amount cannot be negative". The last three have kind
    InvalidArgument. *)
Theorem addItem_failure_priority :
  let outcome := fst (addItem productId quantity unitPriceAmount (o, h)) in
  (open (state o) = false ->
     outcome = Throw (CannotAddItems (state o)))
  /\ (open (state o) = true ->
      blankProductId productId = true ->
      outcome = Throw ProductIdCannotBeEmpty)
  /\ (open (state o) = true ->
      blankProductId productId = false ->
      Number.le quantity Number.zero = true ->
      outcome = Throw QuantityMustBeGreaterThanZero)
  /\ (open (state o) = true ->
      blankProductId productId = false ->
      Number.le quantity Number.zero = false ->
      Number.lt unitPriceAmount Number.zero = true ->
      outcome = Throw UnitPriceAmountCannotBeNegative)
  /\ kind (CannotAddItems (state o)) = AddItemNotAllowed
  /\ kind ProductIdCannotBeEmpty = InvalidArgument
  /\ kind QuantityMustBeGreaterThanZero = InvalidArgument
  /\ kind UnitPriceAmountCannotBeNegative = InvalidArgument.
Proof.
  cbv zeta. rewrite addItem_outcome, canAddItems_open.
  split; [intros ->; reflexivity|].
  split; [intros -> ->; reflexivity|].
  split; [intros -> -> ->; reflexivity|].
  split; [intros -> -> -> ->; reflexivity|].
  repeat split.
Qed.

(** C6: in state SHIPPED or CANCELED [addItem] throws "cannot add
    items" and leaves the order, its items included, as it was. In
    state PENDING or CONFIRMED, with a product identity that is not
    blank, a quantity [> 0] and a unit price [>= 0], it succeeds and
    appends exactly one item, built from the arguments, the order's
    identity and currency and a fresh item identity, so the number of
    items grows by exactly one. Whenever [addItem] throws, the order
    and the host are left exactly as they were. *)
Theorem addItem_appends_one_item_or_changes_nothing :
  (state o = SHIPPED \/ state o = CANCELED ->
     addItem productId quantity unitPriceAmount (o, h)
     = (Throw (CannotAddItems (state o)), (o, h)))
  /\ (state o = PENDING \/ state o = CONFIRMED ->
      blankProductId productId = false ->
      Number.lt Number.zero quantity = true ->
      Number.le Number.zero unitPriceAmount = true ->
      exists p item h',
        productId = Some p
        /\ item = {| SalesOrderItem.orderId := id o;
                     SalesOrderItem.itemId := uuids h (issued h);
                     SalesOrderItem.productId := p;
                     SalesOrderItem.quantity := quantity;
                     SalesOrderItem.unitPrice :=
                       {| Money.amount := unitPriceAmount;
                          Money.currency := currency o |} |}
        /\ addItem productId quantity unitPriceAmount (o, h)
           = (Ok tt, (withItem o item, h'))
        /\ items (withItem o item) = items o ++ [item]
        /\ List.length (items (withItem o item)) = S (List.length (items o)))
  /\ (forall e s,
        addItem productId quantity unitPriceAmount (o, h) = (Throw e, s) ->
        s = (o, h)).
Proof.
  rewrite addItem_outcome, canAddItems_open.
  split; [|split].
  - intros [E|E]; rewrite E; reflexivity.
  - intros Hs Hb Hq Hp.
    assert (Ho : open (state o) = true)
      by (destruct Hs as [E|E]; rewrite E; reflexivity).
    rewrite Ho, Hb, (pos_not_le _ Hq), (nonneg_not_lt _ Hp); cbn [negb].
    destruct productId as [p|]; [|discriminate Hb].
    eexists p, _, _. split; [reflexivity|]. split; [reflexivity|].
    split; [reflexivity|]. split; [reflexivity|].
    cbn [withItem items]. rewrite length_app; cbn. lia.
  - intros e s.
    destruct (negb _); [congruence|].
    destruct (blankProductId _); [congruence|].
    destruct (Number.le _ _); [congruence|].
    destruct (Number.lt _ _); [congruence|].
    destruct productId; congruence.
Qed.

End AddItem.

Lemma addItem_failure_priority_witness :
  fst (SalesOrder.addItem None (Number.of_Z (-1)) (Number.of_Z (-5))
         Demo.shipped)
    = Throw (CannotAddItems SHIPPED)
  /\ fst (SalesOrder.addItem None (Number.of_Z (-1)) (Number.of_Z (-5))
            (Demo.order, Demo.host))
    = Throw ProductIdCannotBeEmpty
  /\ fst (SalesOrder.addItem (Some (Demo.product 1)) (Number.of_Z (-1))
            (Number.of_Z (-5)) (Demo.order, Demo.host))
    = Throw QuantityMustBeGreaterThanZero
  /\ fst (SalesOrder.addItem (Some (Demo.product 1)) (Number.of_Z 2)
            (Number.of_Z (-5)) (Demo.order, Demo.host))
    = Throw UnitPriceAmountCannotBeNegative.
Proof.
  split; [|split; [|split]].
  - apply (addItem_failure_priority (fst Demo.shipped) (snd Demo.shipped)
             None (Number.of_Z (-1)) (Number.of_Z (-5))).
    reflexivity.
  - apply (addItem_failure_priority Demo.order Demo.host
             None (Number.of_Z (-1)) (Number.of_Z (-5))); reflexivity.
  - apply (addItem_failure_priority Demo.order Demo.host
             (Some (Demo.product 1)) (Number.of_Z (-1)) (Number.of_Z (-5)));
      reflexivity.
  - apply (addItem_failure_priority Demo.order Demo.host
             (Some (Demo.product 1)) (Number.of_Z 2) (Number.of_Z (-5)));
      reflexivity.
Defined.

Lemma addItem_appends_one_item_or_changes_nothing_witness :
  SalesOrder.addItem (Some (Demo.product 1)) (Number.of_Z 2) (Number.of_Z 100)
    Demo.shipped
  = (Throw (CannotAddItems SHIPPED), Demo.shipped)
  /\ exists p item h',
       Some (Demo.product 1) = Some p
       /\ item = {| SalesOrderItem.orderId := SalesOrder.id Demo.order;
                    SalesOrderItem.itemId := lit "uuid-#";
                    SalesOrderItem.productId := p;
                    SalesOrderItem.quantity := Number.of_Z 2;
                    SalesOrderItem.unitPrice :=
                      {| Money.amount := Number.of_Z 100;
                         Money.currency := Demo.USD |} |}
       /\ SalesOrder.addItem (Some (Demo.product 1)) (Number.of_Z 2)
            (Number.of_Z 100) (Demo.order, Demo.hostAfter 1)
          = (Ok tt, (SalesOrder.withItem Demo.order item, h'))
       /\ SalesOrder.items (SalesOrder.withItem Demo.order item)
          = SalesOrder.items Demo.order ++ [item]
       /\ List.length (SalesOrder.items (SalesOrder.withItem Demo.order item))
          = S (List.length (SalesOrder.items Demo.order)).
Proof.
  split.
  - apply (addItem_appends_one_item_or_changes_nothing
             (fst Demo.shipped) (snd Demo.shipped)
             (Some (Demo.product 1)) (Number.of_Z 2) (Number.of_Z 100)).
    left; reflexivity.
  - apply (addItem_appends_one_item_or_changes_nothing
             Demo.order (Demo.hostAfter 1)
             (Some (Demo.product 1)) (Number.of_Z 2) (Number.of_Z 100)).
    + left; reflexivity.
    + reflexivity.
    + reflexivity.
    + reflexivity.
Defined.

(** ** Money arithmetic *)

Section MoneyFacts.

Import Number.

(** The Money values are the results of the constructor: the records
    whose amount passed the guard [amount < 0]. *)
Lemma Money_new_Ok a c m :
  Money.new a c = Ok m <->
  notNegative a /\ m = {| Money.amount := a; Money.currency := c |}.
Proof.
  unfold Money.new, notNegative.
  destruct (lt a zero); split.
  - discriminate.
  - intros [H _]; discriminate H.
  - intros H; injection H as <-; auto.
  - intros [_ ->]; reflexivity.
Qed.

Lemma Money_new_notNegative a c :
  notNegative a ->
  Money.new a c = Ok {| Money.amount := a; Money.currency := c |}.
Proof. intros H; apply Money_new_Ok; auto. Qed.

(** C8: for two Money values, [add] throws the currency-mismatch error
    exactly when the two currency codes differ, and nothing else makes
    it throw; when the codes agree it returns the Money whose amount is
    the sum of the two amounts and whose currency is the receiver's.
    Money has only readonly fields and [add] is a function of the two
    values, which it leaves as they are. *)
Theorem Money_add_sums_or_rejects
    (a1 a2 : number) (c1 c2 : Currency.t) (m1 m2 : Money.t) :
  Money.new a1 c1 = Ok m1 ->
  Money.new a2 c2 = Ok m2 ->
  (Currency.code c1 <> Currency.code c2 ->
     Money.add m1 m2
     = Throw (CannotAddDifferentCurrencies
                (Currency.code c1) (Currency.code c2)))
  /\ (Currency.code c1 = Currency.code c2 ->
      Money.add m1 m2
      = Ok {| Money.amount := add a1 a2; Money.currency := c1 |})
  /\ ((exists e, Money.add m1 m2 = Throw e) <->
      Currency.code c1 <> Currency.code c2)
  /\ (forall e, Money.add m1 m2 = Throw e -> kind e = CurrencyMismatch).
Proof.
  intros H1 H2.
  apply Money_new_Ok in H1 as [N1 ->]; apply Money_new_Ok in H2 as [N2 ->].
  unfold Money.add; cbn [Money.amount Money.currency].
  rewrite (Money_new_notNegative c1 (add_notNegative N1 N2)).
  destruct (Str.eqb (Currency.code c1) (Currency.code c2)) eqn:E; cbn [negb].
  - apply Str_eqb_eq in E.
    split; [congruence|]. split; [reflexivity|].
    split; [|discriminate].
    split; [intros [e H]; discriminate H | congruence].
  - apply Str_eqb_neq in E.
    split; [reflexivity|]. split; [congruence|].
    split; [split; [auto | eauto] |].
    intros e H; injection H as <-; reflexivity.
Qed.

(** C9, as stated, fails: a Money can have the amount [NaN], for which
    [amount >= 0] is false. The constructor accepts [NaN]; and from
    amounts and factors that all are [>= 0], [multiply] reaches [NaN]:
    1e308 times 10 is [Infinity], and [Infinity] times 0 is [NaN]. *)
Lemma Money_amount_can_be_NaN :
  Money.new NaN Demo.USD = Ok (Demo.usd NaN)
  /\ le zero (Money.amount (Demo.usd NaN)) = false
  /\ Money.new (of_Z (10 ^ 308)) Demo.USD = Ok (Demo.usd (of_Z (10 ^ 308)))
  /\ le zero (Money.amount (Demo.usd (of_Z (10 ^ 308)))) = true
  /\ le zero (of_Z 10) = true
  /\ Money.multiply (Demo.usd (of_Z (10 ^ 308))) (of_Z 10)
     = Ok (Demo.usd Infinity)
  /\ le zero (Money.amount (Demo.usd Infinity)) = true
  /\ le zero zero = true
  /\ Money.multiply (Demo.usd Infinity) zero = Ok (Demo.usd NaN).
Proof. vm_compute. repeat split. Qed.

(** C9, amended: no Money has an amount [< 0]. Construction with an
    amount [< 0] and [multiply] with a factor [< 0] throw (kind
    InvalidArgument); the amount of every constructed Money, of every
    successful [add] of two Money values and of every [multiply] by a
    factor that is not [< 0] (which then succeeds) is again not [< 0].
    Such an amount is [>= 0] unless it is [NaN]. *)
Theorem Money_amount_never_negative :
  (forall a c, lt a zero = true ->
     Money.new a c = Throw (AmountCannotBeNegative a)
     /\ kind (AmountCannotBeNegative a) = InvalidArgument)
  /\ (forall m f, lt f zero = true ->
     Money.multiply m f = Throw (FactorCannotBeNegative f)
     /\ kind (FactorCannotBeNegative f) = InvalidArgument)
  /\ (forall a c m, Money.new a c = Ok m -> lt (Money.amount m) zero = false)
  /\ (forall a1 c1 m1 a2 c2 m2 m,
        Money.new a1 c1 = Ok m1 -> Money.new a2 c2 = Ok m2 ->
        Money.add m1 m2 = Ok m -> lt (Money.amount m) zero = false)
  /\ (forall a c m f,
        Money.new a c = Ok m -> lt f zero = false ->
        exists m', Money.multiply m f = Ok m'
                   /\ lt (Money.amount m') zero = false)
  /\ (forall m, lt (Money.amount m) zero = false ->
        isNaN (Money.amount m) = false -> le zero (Money.amount m) = true).
Proof.
  split; [|split; [|split; [|split; [|split]]]].
  - intros a c H; unfold Money.new; rewrite H; auto.
  - intros m f H; unfold Money.multiply; rewrite H; auto.
  - intros a c m H; apply Money_new_Ok in H as [N ->]; exact N.
  - intros a1 c1 m1 a2 c2 m2 m H1 H2.
    apply Money_new_Ok in H1 as [N1 ->]; apply Money_new_Ok in H2 as [N2 ->].
    unfold Money.add; cbn [Money.amount Money.currency].
    destruct (negb _); [discriminate|].
    intros H; apply Money_new_Ok in H as [N ->]; exact N.
  - intros a c m f H Hf; apply Money_new_Ok in H as [N ->].
    unfold Money.multiply; cbn [Money.amount Money.currency]; rewrite Hf.
    rewrite (Money_new_notNegative c (mul_notNegative N Hf)).
    eexists; split; [reflexivity|].
    exact (mul_notNegative N Hf).
  - intros m N H; apply notNegative_le; assumption.
Qed.

Lemma Money_add_sums_or_rejects_witness :
  Money.add {| Money.amount := of_Z 200; Money.currency := Demo.USD |}
            {| Money.amount := of_Z 1000; Money.currency := Demo.USD |}
  = Ok {| Money.amount := add (of_Z 200) (of_Z 1000);
          Money.currency := Demo.USD |}
  /\ Money.add {| Money.amount := of_Z 200; Money.currency := Demo.USD |}
               {| Money.amount := of_Z 1000; Money.currency := Demo.PEN |}
  = Throw (CannotAddDifferentCurrencies (lit "USD") (lit "PEN")).
Proof.
  split.
  - apply (@Money_add_sums_or_rejects (of_Z 200) (of_Z 1000)
             Demo.USD Demo.USD _ _ eq_refl eq_refl).
    reflexivity.
  - apply (@Money_add_sums_or_rejects (of_Z 200) (of_Z 1000)
             Demo.USD Demo.PEN _ _ eq_refl eq_refl).
    vm_compute; discriminate.
Defined.

Lemma Money_amount_never_negative_witness :
  Money.new (of_Z (-1)) Demo.USD = Throw (AmountCannotBeNegative (of_Z (-1)))
  /\ lt (Money.amount {| Money.amount := of_Z 100;
                         Money.currency := Demo.USD |}) zero = false
  /\ exists m',
       Money.multiply {| Money.amount := of_Z 100;
                         Money.currency := Demo.USD |} (of_Z 2) = Ok m'
       /\ lt (Money.amount m') zero = false.
Proof.
  destruct Money_amount_never_negative as (Hnew & _ & Hok & _ & Hmul & _).
  split; [|split].
  - apply Hnew; reflexivity.
  - apply (Hok (of_Z 100) Demo.USD); reflexivity.
  - apply (Hmul (of_Z 100) Demo.USD); reflexivity.
Defined.

End MoneyFacts.

(** ** ProductId *)

Section ProductIdFacts.

Import SalesOrder.

(** C10: constructing a ProductId never throws. Given a string it
    stores that string as it is, the empty string and strings of
    white space included, and takes nothing from the host; only
    without an argument does it take a fresh identity from the host.
    A blank identity is rejected when it reaches [addItem] on an open
    order. *)
Theorem ProductId_new_never_fails (h : Host) :
  (forall s, ProductId.new (Some s) h = (Ok {| ProductId.id := s |}, h))
  /\ ProductId.new (Some []) h = (Ok {| ProductId.id := [] |}, h)
  /\ ProductId.new (Some (lit "   ")) h
     = (Ok {| ProductId.id := lit "   " |}, h)
  /\ ProductId.new None h
     = (Ok {| ProductId.id := uuids h (issued h) |},
        {| uuids := uuids h; issued := S (issued h); now := now h;
           parseDate := parseDate h |})
  /\ (forall s o q u,
        Str.trim s = [] -> open (state o) = true ->
        exists p, fst (ProductId.new (Some s) h) = Ok p
                  /\ addItem (Some p) q u (o, h)
                     = (Throw ProductIdCannotBeEmpty, (o, h))).
Proof.
  split; [reflexivity|]. split; [reflexivity|]. split; [reflexivity|].
  split; [reflexivity|].
  intros s o q u Hs Ho. eexists; split; [reflexivity|].
  rewrite addItem_outcome, canAddItems_open, Ho; cbn [negb blankProductId].
  cbn [ProductId.id]. rewrite Hs. reflexivity.
Qed.

Lemma ProductId_new_never_fails_witness :
  exists p, fst (ProductId.new (Some (lit "   ")) Demo.host) = Ok p
            /\ addItem (Some p) (Number.of_Z 2) (Number.of_Z 100)
                 (Demo.order, Demo.host)
               = (Throw ProductIdCannotBeEmpty, (Demo.order, Demo.host)).
Proof.
  destruct (ProductId_new_never_fails Demo.host) as (_ & _ & _ & _ & H).
  apply H; reflexivity.
Defined.

End ProductIdFacts.

(** ** The total of an order *)

Section Total.

Import SalesOrder.

Lemma run_items c o h r o' h' :
  run c (o, h) = (r, (o', h')) ->
  currency o' = currency o
  /\ (items o' = items o
      \/ exists item, items o' = items o ++ [item] /\ addedTo o item).
Proof.
  destruct c as [p q u| | | | |s]; cbn [run].
  - rewrite addItem_outcome.
    destruct (negb _); [intros H; store_of H|].
    destruct (blankProductId _); [intros H; store_of H|].
    destruct (Number.le _ _) eqn:Hq; [intros H; store_of H|].
    destruct (Number.lt _ _) eqn:Hu; [intros H; store_of H|].
    destruct p as [p|]; intros H; injection H as _ <- _; [|auto].
    split; [reflexivity|]. right. eexists; split; [reflexivity|].
    split; [reflexivity|]. split; [exact Hu|].
    exact (le_false_notNegative _ Hq).
  - unfold bind. pose proof (calculateTotalAmount_store (o, h)) as Hs.
    destruct (calculateTotalAmount (o, h)) as [[m|e] s]; cbn in Hs; subst s;
      unfold ret; intros H; store_of H.
  - unfold confirm, bind, this, assign_state, throw; cbn [fst snd].
    destruct (SalesOrderState_eqb _ _); intros H; store_of H.
  - unfold ship, bind, this, assign_state, throw; cbn [fst snd].
    destruct (SalesOrderState_eqb _ _); intros H; store_of H.
  - unfold cancel, bind, this, assign_state, throw; cbn [fst snd].
    destruct (_ || _); intros H; store_of H.
  - unfold set_state, assign_state; cbn [fst snd].
    intros H; store_of H.
Qed.

Lemma new_items customerId cur orderedAt h o h' :
  new customerId cur orderedAt h = (Ok o, h') ->
  items o = [] /\ state o = PENDING /\ currency o = cur.
Proof.
  unfold new. destruct (_ || _); [discriminate|].
  unfold randomUUID, DateTime.new, get, throw, ret.
  unfold bind; cbv beta iota zeta.
  destruct (DateTime.truthy orderedAt).
  - destruct (Number.isNaN _); [discriminate|].
    destruct (Number.gt _ _); [discriminate|].
    intros H; injection H as <- _; auto.
  - intros H; injection H as <- _; auto.
Qed.

(** Every item of a reachable order was appended by [addItem]. *)
Lemma Reachable_items o : Reachable o -> Forall (addedTo o) (items o).
Proof.
  induction 1 as [cid cur at_ h o h' Hnew | c o h r o' h' Ho IH Hrun].
  - apply new_items in Hnew as (-> & _); constructor.
  - apply run_items in Hrun as [Hc [Hi | [item [Hi Hitem]]]]; rewrite Hi.
    + eapply Forall_impl; [|exact IH].
      unfold addedTo; intros it; rewrite Hc; auto.
    + apply Forall_app; split.
      * eapply Forall_impl; [|exact IH].
        unfold addedTo; intros it; rewrite Hc; auto.
      * constructor; [|constructor].
        unfold addedTo in *; rewrite Hc; exact Hitem.
Qed.

(** The fold of [calculateTotalAmount] over items appended by
    [addItem], from a total in the order's currency: no step throws. *)
Lemma reduce_items o : forall (array : list SalesOrderItem.t) (a : number),
  Forall (addedTo o) array -> notNegative a ->
  reduce
    (fun total item =>
       match SalesOrderItem.calculateItemTotal item with
       | Ok itemTotal => Money.add total itemTotal
       | Throw e => Throw e
       end)
    array {| Money.amount := a; Money.currency := currency o |}
  = Ok {| Money.amount := sumOfItemTotals array a;
          Money.currency := currency o |}
  /\ notNegative (sumOfItemTotals array a).
Proof.
  induction array as [|item array IH]; intros a Hall Ha.
  - cbn; auto.
  - inversion Hall as [|? ? (Hc & Hp & Hq) Hrest]; subst.
    cbn [reduce sumOfItemTotals fold_left].
    unfold SalesOrderItem.calculateItemTotal.
    rewrite (Money_new_notNegative _ (mul_notNegative Hp Hq)).
    unfold Money.add; cbn [Money.amount Money.currency].
    rewrite Hc, Str_eqb_refl; cbn [negb].
    pose proof (add_notNegative Ha (mul_notNegative Hp Hq)) as Hsum.
    rewrite (Money_new_notNegative _ Hsum).
    exact (IH _ Hrest Hsum).
Qed.

(** C7: on every order whose items were all appended by [addItem],
    [calculateTotalAmount] does not throw, returns the Money in the
    order's currency whose amount is the fold, from 0, of the sums
    [total + unitPrice.amount * quantity] over the items in order,
    and leaves the order and the host as they were. For the order of
    the console script, with items (unit price 100, quantity 2) and
    (unit price 50, quantity 20) in USD, the result is Money(1200, USD);
    for an order without items it is Money(0, currency). *)
Theorem calculateTotalAmount_is_the_fold_of_item_totals :
  (forall o h, Reachable o ->
     calculateTotalAmount (o, h)
     = (Ok {| Money.amount := sumOfItemTotals (items o) Number.zero;
              Money.currency := currency o |}, (o, h)))
  /\ calculateTotalAmount Demo.confirmed
     = (Ok {| Money.amount := Number.of_Z 1200;
              Money.currency := Demo.USD |}, Demo.confirmed)
  /\ map (fun item => (Money.amount (SalesOrderItem.unitPrice item),
                       SalesOrderItem.quantity item,
                       Money.currency (SalesOrderItem.unitPrice item)))
         (items (fst Demo.confirmed))
     = [(Number.of_Z 100, Number.of_Z 2, Demo.USD);
        (Number.of_Z 50, Number.of_Z 20, Demo.USD)]
  /\ (forall o h, items o = [] ->
        calculateTotalAmount (o, h)
        = (Ok {| Money.amount := Number.zero;
                 Money.currency := currency o |}, (o, h))).
Proof.
  split; [|split; [|split]].
  - intros o h Ho.
    unfold calculateTotalAmount, bind, this, liftR; cbn [fst snd].
    rewrite (Money_new_notNegative (currency o) (a:=Number.zero) eq_refl).
    destruct (reduce_items (Reachable_items Ho) (a:=Number.zero) eq_refl)
      as [-> _].
    reflexivity.
  - vm_compute; reflexivity.
  - vm_compute; reflexivity.
  - intros o h E.
    unfold calculateTotalAmount, bind, this, liftR; cbn [fst snd].
    rewrite E; reflexivity.
Qed.

Lemma calculateTotalAmount_is_the_fold_of_item_totals_witness :
  calculateTotalAmount Demo.confirmed
  = (Ok {| Money.amount :=
             sumOfItemTotals (items (fst Demo.confirmed)) Number.zero;
           Money.currency := currency (fst Demo.confirmed) |},
     Demo.confirmed).
Proof.
  apply (proj1 calculateTotalAmount_is_the_fold_of_item_totals
           (fst Demo.confirmed) (snd Demo.confirmed)).
  pose (s0 := (Demo.order, Demo.hostAfter 1)).
  pose (s1 := runAll (firstn 1 Demo.scenario) s0).
  pose (s2 := runAll (firstn 2 Demo.scenario) s0).
  apply (@Reachable_run Confirm (fst s2) (snd s2) (Ok tt)
           (fst Demo.confirmed) (snd Demo.confirmed));
    [|reflexivity].
  apply (@Reachable_run
           (AddItem (Some (Demo.product 2)) (Number.of_Z 20)
                    (Number.of_Z 50)) (fst s1) (snd s1) (Ok tt)
           (fst s2) (snd s2));
    [|reflexivity].
  apply (@Reachable_run
           (AddItem (Some (Demo.product 1)) (Number.of_Z 2)
                    (Number.of_Z 100)) (fst s0) (snd s0) (Ok tt)
           (fst s1) (snd s1));
    [|reflexivity].
  apply (@Reachable_new (lit "cust-1") Demo.USD None Demo.host
           Demo.order (Demo.hostAfter 1)).
  reflexivity.
Defined.

End Total.


(* ===================================================================== *)
(** * Further properties of the model *)
(* ===================================================================== *)

(** ** Blank strings *)

Section Blank.

Import Str.

Lemma trimStart_nil (s : jsstring) : trimStart s = [] <-> blank s = true.
Proof.
  unfold blank; induction s as [|c s IH]; cbn [trimStart forallb]; [tauto|].
  destruct (isWhiteSpace c); cbn [andb]; [exact IH|].
  split; discriminate.
Qed.

Lemma trimStart_head (s : jsstring) c t :
  trimStart s = c :: t -> isWhiteSpace c = false.
Proof.
  induction s as [|x s IH]; cbn [trimStart]; [discriminate|].
  destruct (isWhiteSpace x) eqn:E; [exact IH|].
  intros H; injection H as -> _; exact E.
Qed.

Lemma blank_rev (s : jsstring) : blank (rev s) = blank s.
Proof.
  unfold blank. destruct (forallb isWhiteSpace s) eqn:E.
  - rewrite forallb_forall in *. intros x Hx; apply E, in_rev, Hx.
  - destruct (forallb isWhiteSpace (rev s)) eqn:E'; [|reflexivity].
    rewrite <- E; symmetry.
    rewrite forallb_forall in *. intros x Hx; apply E'.
    rewrite <- in_rev; exact Hx.
Qed.

(** [s.trim() === ''] exactly when [s] consists of white space only. *)
Lemma trim_nil (s : jsstring) : trim s = [] <-> blank s = true.
Proof.
  unfold trim, trimEnd. split.
  - intros H. apply (f_equal (@rev N)) in H; rewrite rev_involutive in H.
    cbn [rev] in H. apply trimStart_nil in H. rewrite blank_rev in H.
    destruct (trimStart s) as [|c t] eqn:E; [apply trimStart_nil, E|].
    apply trimStart_head in E. unfold blank in H; cbn [forallb] in H.
    rewrite E in H; discriminate.
  - intros H. apply trimStart_nil in H. rewrite H; reflexivity.
Qed.

(** [!s || s.trim() === ''] as a test for blank strings. *)
Lemma blank_test (s : jsstring) :
  falsy s || Str.eqb (trim s) [] = blank s.
Proof.
  destruct (blank s) eqn:B.
  - apply trim_nil in B. rewrite B. apply orb_true_r.
  - destruct s as [|c s]; [discriminate B|]. cbn [falsy orb].
    apply Str_eqb_neq. intros H; apply trim_nil in H; congruence.
Qed.

End Blank.

(** ** More on numbers *)

Section MoreNumberFacts.

Import Number.

(** [x < x] and [x > x] are false. *)
Lemma lt_irrefl (x : number) : lt x x = false.
Proof.
  unfold lt, SFltb.
  destruct x as [s|[|]| |[|] m e]; cbn; try reflexivity;
    rewrite Z.compare_refl, Pos.compare_cont_refl; reflexivity.
Qed.

(** [x + y] and [y + x] are the same number. *)
Lemma add_comm (x y : number) : add x y = add y x.
Proof.
  unfold add.
  destruct x as [[|]|[|]| |sx mx ex], y as [[|]|[|]| |sy my ey];
    try reflexivity.
  unfold SFadd. rewrite (Z.min_comm ey ex). f_equal. apply Z.add_comm.
Qed.

End MoreNumberFacts.

(** ** Constructors *)

Section Constructors.

Lemma DateTime_new_host value h : snd (DateTime.new value h) = h.
Proof.
  unfold DateTime.new, get, throw, ret. unfold bind; cbv beta iota zeta.
  destruct (DateTime.truthy value); [|reflexivity].
  destruct (Number.isNaN _); [reflexivity|].
  destruct (Number.gt _ _); reflexivity.
Qed.

Lemma DateTime_new_advance value n h :
  fst (DateTime.new value (advance n h)) = fst (DateTime.new value h).
Proof.
  unfold DateTime.new, get, throw, ret. unfold bind; cbv beta iota zeta.
  destruct value as [[t|s]|];
    cbn [DateTime.truthy DateTime.toDate advance now parseDate];
    repeat match goal with
           | |- context [if ?b then _ else _] => destruct b
           end; reflexivity.
Qed.

(** X1: a DateTime is never in the future. Whatever the argument, the
    constructor leaves the host as it is, and the time it stores is not
    later than the clock, and is a valid time whenever the clock is.
    Without an argument, or with the empty string, it stores the clock's
    time; an invalid Date (an unparsable string) throws "invalid date",
    and a time later than the clock throws "date cannot be in the
    future". *)
Theorem DateTime_new_never_in_the_future
    (value : option DateTime.input) (h : Host) :
  snd (DateTime.new value h) = h
  /\ (forall d, fst (DateTime.new value h) = Ok d ->
        Number.gt (DateTime.value d) (now h) = false
        /\ (Number.isNaN (now h) = false ->
            Number.isNaN (DateTime.value d) = false))
  /\ DateTime.new None h = (Ok {| DateTime.value := now h |}, h)
  /\ DateTime.new (Some (DateTime.OfString [])) h
     = (Ok {| DateTime.value := now h |}, h)
  /\ (DateTime.truthy value = true ->
      Number.isNaN (DateTime.toDate h value) = true ->
      DateTime.new value h
      = (Throw (InvalidDate (DateTime.toDate h value)), h))
  /\ (DateTime.truthy value = true ->
      Number.isNaN (DateTime.toDate h value) = false ->
      Number.gt (DateTime.toDate h value) (now h) = true ->
      DateTime.new value h
      = (Throw (DateCannotBeInTheFuture (DateTime.toDate h value)), h)).
Proof.
  split; [apply DateTime_new_host|].
  unfold DateTime.new, get, throw, ret. unfold bind; cbv beta iota zeta.
  split; [|split; [reflexivity|split; [reflexivity|split]]].
  - intros d. destruct (DateTime.truthy value); cbn [fst].
    + destruct (Number.isNaN (DateTime.toDate h value)) eqn:En;
        [discriminate|].
      destruct (Number.gt _ _) eqn:Eg; [discriminate|].
      intros H; injection H as <-; cbn [DateTime.value]; auto.
    + intros H; injection H as <-; cbn [DateTime.value]. split; [|auto].
      apply lt_irrefl.
  - intros -> ->; reflexivity.
  - intros -> -> ->; reflexivity.
Qed.

Lemma DateTime_new_never_in_the_future_witness :
  DateTime.new (Some (DateTime.OfString (lit "not a date"))) Demo.host
  = (Throw (InvalidDate Number.NaN), Demo.host)
  /\ DateTime.new (Some (DateTime.OfDate (Number.of_Z 1762128000001)))
       Demo.host
     = (Throw (DateCannotBeInTheFuture (Number.of_Z 1762128000001)),
        Demo.host)
  /\ Number.gt (Number.of_Z 1684146600000) (now Demo.host) = false.
Proof.
  split; [|split].
  - apply (DateTime_new_never_in_the_future
             (Some (DateTime.OfString (lit "not a date"))) Demo.host);
      reflexivity.
  - apply (DateTime_new_never_in_the_future
             (Some (DateTime.OfDate (Number.of_Z 1762128000001))) Demo.host);
      reflexivity.
  - refine (proj1 (proj1 (proj2 (DateTime_new_never_in_the_future
             (Some (DateTime.OfDate (Number.of_Z 1684146600000))) Demo.host))
             {| DateTime.value := Number.of_Z 1684146600000 |} _)).
    reflexivity.
Defined.

(** X2: constructing a SalesOrder. A customer id of white space only
    (the empty string included) throws "customer id cannot be empty" and
    takes nothing from the host. Otherwise one identity is taken from
    the host before the date is looked at: if the date is rejected, the
    constructor throws the DateTime's error and that identity is spent;
    if not, the new order is PENDING, has no items, and carries the
    customer id and currency given, the identity taken and the date. *)
Theorem SalesOrder_new_outcomes
    (customerId : jsstring) (currency : Currency.t)
    (orderedAt : option DateTime.input) (h : Host) :
  (blank customerId = true ->
     SalesOrder.new customerId currency orderedAt h
     = (Throw (CustomerIdCannotBeEmpty customerId), h))
  /\ (blank customerId = false ->
      forall e, fst (DateTime.new orderedAt h) = Throw e ->
      SalesOrder.new customerId currency orderedAt h
      = (Throw e, advance 1 h))
  /\ (blank customerId = false ->
      forall d, fst (DateTime.new orderedAt h) = Ok d ->
      SalesOrder.new customerId currency orderedAt h
      = (Ok {| SalesOrder.customerId := customerId;
               SalesOrder.id := uuids h (issued h);
               SalesOrder.items := [];
               SalesOrder.orderedAt := d;
               SalesOrder.currency := currency;
               SalesOrder.state := PENDING |}, advance 1 h)).
Proof.
  unfold SalesOrder.new. rewrite blank_test.
  split; [intros ->; reflexivity|].
  assert (Hrun : forall r, fst (DateTime.new orderedAt h) = r ->
            DateTime.new orderedAt (advance 1 h) = (r, advance 1 h)).
  { intros r <-. rewrite <- (DateTime_new_advance orderedAt 1 h).
    rewrite <- (DateTime_new_host orderedAt (advance 1 h)) at 3.
    destruct (DateTime.new orderedAt (advance 1 h)); reflexivity. }
  split; intros -> x Hx; apply Hrun in Hx;
    unfold bind, randomUUID; change (S (issued h)) with (1 + issued h);
    fold (advance 1 h); rewrite Hx; reflexivity.
Qed.

Lemma SalesOrder_new_outcomes_witness :
  SalesOrder.new (lit "  ") Demo.USD None Demo.host
  = (Throw (CustomerIdCannotBeEmpty (lit "  ")), Demo.host)
  /\ SalesOrder.new (lit "cust-1") Demo.USD
       (Some (DateTime.OfString (lit "not a date"))) Demo.host
     = (Throw (InvalidDate Number.NaN), Demo.hostAfter 1)
  /\ SalesOrder.new (lit "cust-1") Demo.USD None Demo.host
     = (Ok Demo.order, Demo.hostAfter 1).
Proof.
  split; [|split].
  - apply (SalesOrder_new_outcomes (lit "  ") Demo.USD None Demo.host).
    reflexivity.
  - apply (SalesOrder_new_outcomes (lit "cust-1") Demo.USD
             (Some (DateTime.OfString (lit "not a date"))) Demo.host);
      reflexivity.
  - apply (SalesOrder_new_outcomes (lit "cust-1") Demo.USD None Demo.host
           : _ /\ _ /\ (_ -> forall d, _ -> _ = (Ok _, Demo.hostAfter 1)));
      reflexivity.
Defined.



End Constructors.

(** ** What a call does to an order *)

Section Calls.

Import SalesOrder.

(** Every call either leaves order and host as they were, or assigns the
    state, or appends one item and takes one identity from the host. *)
Lemma run_effect c o h r o' h' :
  run c (o, h) = (r, (o', h')) ->
  (o' = o /\ h' = h)
  \/ (r = Ok tt /\ h' = h
      /\ ((c = Confirm /\ state o = PENDING /\ o' = withState o CONFIRMED)
          \/ (c = Ship /\ state o = CONFIRMED /\ o' = withState o SHIPPED)
          \/ (c = Cancel /\ (state o = CONFIRMED \/ state o = SHIPPED)
              /\ o' = withState o CANCELED)
          \/ (exists s, c = SetState s /\ o' = withState o s)))
  \/ (exists p q u,
        c = AddItem (Some p) q u /\ r = Ok tt
        /\ open (state o) = true
        /\ blank (ProductId.id p) = false
        /\ Number.le q Number.zero = false
        /\ Number.lt u Number.zero = false
        /\ o' = withItem o
                  {| SalesOrderItem.orderId := id o;
                     SalesOrderItem.itemId := uuids h (issued h);
                     SalesOrderItem.productId := p;
                     SalesOrderItem.quantity := q;
                     SalesOrderItem.unitPrice :=
                       {| Money.amount := u; Money.currency := currency o |} |}
        /\ h' = advance 1 h).
Proof.
  destruct c as [p q u| | | | |s]; cbn [run].
  - rewrite addItem_outcome, canAddItems_open.
    destruct (open (state o)) eqn:Ho; cbn [negb];
      [|intros H; injection H as _ <- <-; auto].
    destruct (blankProductId p) eqn:Hb; [intros H; injection H as _ <- <-; auto|].
    destruct (Number.le _ _) eqn:Hq; [intros H; injection H as _ <- <-; auto|].
    destruct (Number.lt _ _) eqn:Hu; [intros H; injection H as _ <- <-; auto|].
    destruct p as [p|]; [|discriminate Hb].
    intros H; injection H as <- <- <-.
    right; right. exists p, q, u.
    split; [reflexivity|]. split; [reflexivity|]. split; [reflexivity|].
    split; [|split; [exact Hq|split; [exact Hu|split; reflexivity]]].
    cbn [blankProductId] in Hb. apply Str_eqb_neq in Hb.
    destruct (blank (ProductId.id p)) eqn:B; [|reflexivity].
    apply trim_nil in B; contradiction.
  - unfold bind. pose proof (calculateTotalAmount_store (o, h)) as Hs.
    destruct (calculateTotalAmount (o, h)) as [[m|e] s]; cbn in Hs; subst s;
      unfold ret; intros H; injection H as _ <- <-; auto.
  - unfold confirm, bind, this, assign_state, throw; cbn [fst snd].
    destruct (state o) eqn:E; cbn; intros H; injection H as <- <- <-;
      solve [left; auto
            | right; left; split; [reflexivity|split; [reflexivity|auto 12]]].
  - unfold ship, bind, this, assign_state, throw; cbn [fst snd].
    destruct (state o) eqn:E; cbn; intros H; injection H as <- <- <-;
      solve [left; auto
            | right; left; split; [reflexivity|split; [reflexivity|auto 12]]].
  - unfold cancel, bind, this, assign_state, throw; cbn [fst snd].
    destruct (state o) eqn:E; cbn; intros H; injection H as <- <- <-;
      solve [left; auto
            | right; left; split; [reflexivity|split; [reflexivity|auto 12]]].
  - unfold set_state, assign_state; cbn [fst snd].
    intros H; injection H as <- <- <-. right; left; eauto 10.
Qed.

(** X4: no member of the order does half of its work. Whenever a call
    throws, whichever member it is and whatever the state and the
    arguments are, the order and the host are exactly as before the
    call. *)
Theorem run_throw_changes_nothing
    (c : Call) (o : SalesOrder.t) (h : Host) (e : Error)
    (s : SalesOrder.t * Host) :
  run c (o, h) = (Throw e, s) -> s = (o, h).
Proof.
  destruct s as [o' h']. intros H.
  destruct (@run_effect _ _ _ _ _ _ H)
    as [[-> ->]|[(Hr & _)|(p & q & u & _ & Hr & _)]];
    [reflexivity|discriminate Hr|discriminate Hr].
Qed.

Lemma run_throw_changes_nothing_witness :
  snd (run Ship (Demo.order, Demo.host)) = (Demo.order, Demo.host).
Proof.
  apply (@run_throw_changes_nothing Ship Demo.order Demo.host
           (CannotShip PENDING)).
  reflexivity.
Defined.




(** X7: without the setter the lifecycle only moves forward. Over any
    sequence of calls other than the setter the state never goes back in
    the order PENDING, CONFIRMED, SHIPPED, CANCELED: an order that has
    left PENDING is never PENDING again, a CANCELED order stays
    CANCELED, and a PENDING order becomes SHIPPED or CANCELED only after
    a [confirm]. *)
Theorem lifecycle_only_moves_forward (cs : list Call) :
  forall (o : SalesOrder.t) (h : Host),
    forallb setterFree cs = true ->
    let s' := state (fst (runAll cs (o, h))) in
    rank (state o) <= rank s'
    /\ (s' = PENDING -> state o = PENDING)
    /\ (state o = CANCELED -> s' = CANCELED)
    /\ (state o = PENDING -> s' <> PENDING -> In Confirm cs).
Proof.
  induction cs as [|c cs IH]; intros o h Hcs; cbn zeta.
  - cbn [runAll fst]. repeat split; auto. intros H1 H2; contradiction.
  - cbn [forallb] in Hcs. apply andb_true_iff in Hcs as [Hc Hcs].
    cbn [runAll].
    destruct (run c (o, h)) as [r [o1 h1]] eqn:E; cbn [snd].
    destruct (IH o1 h1 Hcs) as (Hr & Hp & Hx & Hconf).
    assert (Hstep : rank (state o) <= rank (state o1)
                    /\ (state o = PENDING -> state o1 <> PENDING ->
                        c = Confirm)).
    { destruct (@run_effect _ _ _ _ _ _ E)
        as [[-> ->]|[(_ & -> & [(-> & Hs & ->)|[(_ & Hs & ->)|[(_ & Hs & ->)
                                    |(s & -> & _)]]])
                    |(p & q & u & _ & _ & _ & _ & _ & _ & -> & _)]];
        try discriminate Hc; cbn [withState withItem state];
        try (destruct Hs as [Hs|Hs]); try rewrite Hs; cbn [rank];
        (split; [lia|congruence]). }
    destruct Hstep as [Hle Hfirst].
    split; [lia|]. split; [|split].
    + intros H. apply Hp in H. destruct (state o), (state o1);
        cbn [rank] in Hle; try reflexivity; try discriminate H; lia.
    + intros H. apply Hx. destruct (state o), (state o1);
        cbn [rank] in Hle; try reflexivity; try discriminate H; lia.
    + intros Hpen Hnot. cbn [In].
      destruct (SalesOrderState_eqb (state o1) PENDING) eqn:E1.
      * right. apply Hconf; [|exact Hnot].
        destruct (state o1); try discriminate E1; reflexivity.
      * left. apply Hfirst; [exact Hpen|].
        destruct (state o1); try discriminate E1; discriminate.
Qed.

Lemma lifecycle_only_moves_forward_witness :
  rank (state Demo.order)
  <= rank (state (fst (runAll (Demo.scenario ++ [Ship; Cancel])
                         (Demo.order, Demo.hostAfter 1)))).
Proof.
  apply (lifecycle_only_moves_forward (Demo.scenario ++ [Ship; Cancel])
           Demo.order (Demo.hostAfter 1)).
  reflexivity.
Defined.

End Calls.

(** ** Orders built through the class *)

Section Orders.

Import SalesOrder.












Lemma confirm_outcome o h :
  confirm (o, h)
  = if SalesOrderState_eqb (state o) PENDING
    then (Ok tt, (withState o CONFIRMED, h))
    else (Throw (CannotConfirm (state o)), (o, h)).
Proof.
  unfold confirm, bind, this, assign_state, throw; cbn [fst snd].
  destruct (SalesOrderState_eqb _ _); reflexivity.
Qed.

(** X11: items can be added before or after confirmation alike. For
    every order, whatever its state, and every item, adding the item and
    then confirming leaves the same order and host as confirming and then
    adding it (with what is thrown caught). *)
Theorem addItem_and_confirm_commute
    (o : SalesOrder.t) (h : Host) (p : option ProductId.t) (q u : number) :
  runAll [AddItem p q u; Confirm] (o, h)
  = runAll [Confirm; AddItem p q u] (o, h).
Proof.
  cbn [runAll run]. rewrite confirm_outcome, addItem_outcome, canAddItems_open.
  destruct (state o) eqn:E; cbn [SalesOrderState_eqb open negb snd];
    rewrite ?addItem_outcome, ?canAddItems_open;
    cbn [withState state open negb]; rewrite ?E; cbn [open negb];
    (destruct (blankProductId p);
     [|destruct (Number.le q Number.zero);
       [|destruct (Number.lt u Number.zero); [|destruct p]]]);
    cbn [snd]; rewrite confirm_outcome; cbn [withItem state]; rewrite ?E;
    cbn [SalesOrderState_eqb]; reflexivity.
Qed.

End Orders.

(** ** Money and customers *)

Section MoneyAndCustomers.

(** X12: the order of the operands of [add] does not matter for the
    sum. When the two currency codes agree, [a.add(b)] and [b.add(a)]
    have the same outcome, the same Money or the same error; when they
    differ, both throw the currency-mismatch error, each naming its own
    receiver's code first. *)
Theorem Money_add_commutes (m1 m2 : Money.t) :
  (Currency.code (Money.currency m1) = Currency.code (Money.currency m2) ->
     Money.add m1 m2 = Money.add m2 m1)
  /\ (Currency.code (Money.currency m1) <> Currency.code (Money.currency m2) ->
      Money.add m1 m2
      = Throw (CannotAddDifferentCurrencies
                 (Currency.code (Money.currency m1))
                 (Currency.code (Money.currency m2)))
      /\ Money.add m2 m1
         = Throw (CannotAddDifferentCurrencies
                    (Currency.code (Money.currency m2))
                    (Currency.code (Money.currency m1)))).
Proof.
  unfold Money.add. split.
  - intros E. rewrite E, Str_eqb_refl; cbn [negb].
    rewrite (add_comm (Money.amount m1)).
    destruct (Money.currency m1) as [c1], (Money.currency m2) as [c2].
    cbn in E; subst c2; reflexivity.
  - intros E.
    assert (E' : Currency.code (Money.currency m2)
                 <> Currency.code (Money.currency m1)) by congruence.
    apply Str_eqb_neq in E; apply Str_eqb_neq in E'.
    rewrite E, E'; split; reflexivity.
Qed.

Lemma Money_add_commutes_witness :
  Money.add (Demo.usd (Number.of_Z 200)) (Demo.usd (Number.of_Z 1000))
  = Money.add (Demo.usd (Number.of_Z 1000)) (Demo.usd (Number.of_Z 200)).
Proof.
  apply (Money_add_commutes (Demo.usd (Number.of_Z 200))
           (Demo.usd (Number.of_Z 1000))).
  reflexivity.
Defined.

(** X13: constructing a Customer. A name of white space only (the empty
    string included) throws "customer name cannot be empty" and takes
    nothing from the host; any other name gives a customer with the
    host's next identity, the name as given and no last order price.
    Setting the last order price changes that field only. *)
Theorem Customer_new_outcomes (name : jsstring) (h : Host) :
  (blank name = true ->
     Customer.new name h = (inl (Customer.NameCannotBeEmpty name), h))
  /\ (blank name = false ->
      Customer.new name h
      = (inr {| Customer.id := uuids h (issued h);
                Customer.name := name;
                Customer.lastOrderPrice := None |}, advance 1 h))
  /\ (forall c m,
        Customer.lastOrderPrice (Customer.set_lastOrderPrice m c) = Some m
        /\ Customer.id (Customer.set_lastOrderPrice m c) = Customer.id c
        /\ Customer.name (Customer.set_lastOrderPrice m c) = Customer.name c).
Proof.
  unfold Customer.new. rewrite blank_test.
  split; [intros ->; reflexivity|].
  split; [intros ->; reflexivity|].
  intros c m; repeat split.
Qed.

Lemma Customer_new_outcomes_witness :
  Customer.new (lit " ") Demo.host
  = (inl (Customer.NameCannotBeEmpty (lit " ")), Demo.host)
  /\ Customer.new (lit "John Doe") Demo.host
     = (inr {| Customer.id := lit "uuid-";
               Customer.name := lit "John Doe";
               Customer.lastOrderPrice := None |}, Demo.hostAfter 1).
Proof.
  split.
  - apply (Customer_new_outcomes (lit " ") Demo.host); reflexivity.
  - apply (Customer_new_outcomes (lit "John Doe") Demo.host); reflexivity.
Defined.

End MoneyAndCustomers.
